(** * Drug-Safety-Calculator backend: the request-to-CSV append pipeline

    A shallow embedding of [backend_app.py]: the store initialiser
    [initialize_csv] and the two Flask endpoints [save_data] and
    [save_suggestion], together with the small part of Python's standard
    library the endpoints call ([dict.get], [json.dumps],
    [datetime.isoformat], [os.path], [csv.writer], [csv.DictWriter]).

    Python values are an inductive type; exceptions are an error monad; the
    file system is an explicit state passed through every handler; the clock
    and the outcome of each I/O call are read from an environment record.
    Calls to [print] only write to the server log and are left out. *)

From Stdlib Require Import ZArith NArith List String Ascii Bool Lia.
From Stdlib Require Import DecimalFacts DecimalPos DecimalN DecimalZ.
From stdpp Require Import base option list gmap.

Local Open Scope N_scope.

(** ** Python strings

    A Python [str] is a sequence of code points. *)

Abbreviation pystr := (list N).

(** The code points of an ASCII literal of the source. *)
Definition py (s : string) : pystr :=
  map N_of_ascii (list_ascii_of_string s).

(** ** Python values, as far as JSON decoding produces them

    [flask.request.get_json] yields [None], [bool], [int], [str], [list]
    and [dict] values. A [dict] keeps its keys in insertion order, which
    [json.dumps] follows, so it is an association list (of distinct keys,
    see [py_wf]). JSON numbers with a fraction or an exponent decode to
    [float]; they are outside this model. *)

Unset Elimination Schemes.
Inductive pyval : Type :=
| PyNone
| PyBool (b : bool)
| PyInt (z : Z)
| PyStr (s : pystr)
| PyList (l : list pyval)
| PyDict (d : list (pystr * pyval)).
Set Elimination Schemes.

Abbreviation pydict := (list (pystr * pyval)).

(** Python exceptions raised on the paths of the two handlers. [IOError] is
    an alias of [OSError]; [UnicodeEncodeError] is a [ValueError]. *)
Inductive exn : Type :=
| AttributeError
| ValueError (msg : pystr)
| OSError.

Inductive result (A : Type) : Type :=
| Ok (a : A)
| Raise (e : exn).
Arguments Ok {A} a.
Arguments Raise {A} e.

(** The error monad: [x ← r; k] runs [k] unless [r] raised. *)
#[global] Instance result_ret : MRet result := @Ok.
#[global] Instance result_bind : MBind result := fun A B k r =>
  match r with
  | Ok a => k a
  | Raise e => Raise e
  end.

(** *** [dict] *)

(** [d[k]] when present. *)
Fixpoint dict_lookup (d : pydict) (k : pystr) : option pyval :=
  match d with
  | [] => None
  | (k', v) :: d' => if decide (k' = k) then Some v else dict_lookup d' k
  end.

(** [d[k] = v]: a present key keeps its place, a new key goes last. *)
Fixpoint dict_set (d : pydict) (k : pystr) (v : pyval) : pydict :=
  match d with
  | [] => [(k, v)]
  | (k', v') :: d' =>
      if decide (k' = k) then (k, v) :: d' else (k', v') :: dict_set d' k v
  end.

(** A dict display [{k1: v1, ...}] and a dict comprehension both insert
    their items from left to right. *)
Definition dict_of_items (items : list (pystr * pyval)) : pydict :=
  fold_left (fun d kv => dict_set d (fst kv) (snd kv)) items [].

Definition dict_keys (d : pydict) : list pystr := map fst d.

(** [d.get(k, default)] on a dict. *)
Definition dict_get (d : pydict) (k : pystr) (default : pyval) : pyval :=
  match dict_lookup d k with
  | Some v => v
  | None => default
  end.

(** [o.get(k, default)] on any value: only a [dict] has the attribute
    [get]. *)
Definition py_get (o : pyval) (k : pystr) (default : pyval) : result pyval :=
  match o with
  | PyDict d => Ok (dict_get d k default)
  | _ => Raise AttributeError
  end.

(** Truth value of a Python object ([not x] is its negation). *)
Definition truthy (v : pyval) : bool :=
  match v with
  | PyNone => false
  | PyBool b => b
  | PyInt z => negb (Z.eqb z 0)
  | PyStr s => negb (bool_decide (s = []))
  | PyList l => negb (bool_decide (length l = 0%nat))
  | PyDict d => negb (bool_decide (length d = 0%nat))
  end.

(** ** [json.dumps], with its defaults

    [ensure_ascii=True], item separator [", "], key separator [": "], keys
    in the dict's order. *)

Definition hex_digit (n : N) : N :=
  if n <? 10 then 48 + n else 87 + n.

(** ['{0:04x}'.format(n)] *)
Definition hex4 (n : N) : pystr :=
  [hex_digit (n / 4096 mod 16); hex_digit (n / 256 mod 16);
   hex_digit (n / 16 mod 16); hex_digit (n mod 16)].

(** The replacement of one code point in [py_encode_basestring_ascii]:
    the short escapes of [ESCAPE_DCT], printable ASCII as it is, a
    [\uXXXX] escape below 0x10000 and a surrogate pair above. *)
Definition escape_char (c : N) : pystr :=
  if c =? 34 then [92; 34]
  else if c =? 92 then [92; 92]
  else if c =? 10 then [92; 110]
  else if c =? 13 then [92; 114]
  else if c =? 9 then [92; 116]
  else if c =? 12 then [92; 102]
  else if c =? 8 then [92; 98]
  else if (32 <=? c) && (c <=? 126) then [c]
  else if c <? 65536 then [92; 117] ++ hex4 c
  else
    let n := c - 65536 in
    let s1 := N.lor 55296 (N.land (N.shiftr n 10) 1023) in
    let s2 := N.lor 56320 (N.land n 1023) in
    [92; 117] ++ hex4 s1 ++ [92; 117] ++ hex4 s2.

Definition encode_basestring_ascii (s : pystr) : pystr :=
  [34] ++ flat_map escape_char s ++ [34].

Fixpoint uint_digits (u : Decimal.uint) : pystr :=
  match u with
  | Decimal.Nil => []
  | Decimal.D0 u => 48 :: uint_digits u
  | Decimal.D1 u => 49 :: uint_digits u
  | Decimal.D2 u => 50 :: uint_digits u
  | Decimal.D3 u => 51 :: uint_digits u
  | Decimal.D4 u => 52 :: uint_digits u
  | Decimal.D5 u => 53 :: uint_digits u
  | Decimal.D6 u => 54 :: uint_digits u
  | Decimal.D7 u => 55 :: uint_digits u
  | Decimal.D8 u => 56 :: uint_digits u
  | Decimal.D9 u => 57 :: uint_digits u
  end.

(** [int.__repr__] *)
Definition int_repr (z : Z) : pystr :=
  match Z.to_int z with
  | Decimal.Pos u => uint_digits u
  | Decimal.Neg u => 45 :: uint_digits u
  end.

Fixpoint join_with (sep : pystr) (parts : list pystr) : pystr :=
  match parts with
  | [] => []
  | [p] => p
  | p :: ps => p ++ sep ++ join_with sep ps
  end.

Fixpoint json_dumps (v : pyval) : pystr :=
  match v with
  | PyNone => py "null"
  | PyBool true => py "true"
  | PyBool false => py "false"
  | PyInt z => int_repr z
  | PyStr s => encode_basestring_ascii s
  | PyList l => [91] ++ join_with (py ", ") (map json_dumps l) ++ [93]
  | PyDict d =>
      [123] ++
      join_with (py ", ")
        (map (fun kv => encode_basestring_ascii (fst kv) ++ py ": " ++
                        json_dumps (snd kv)) d) ++
      [125]
  end.

(** ** [json.loads]

    The reader of the text [json.dumps] writes: the scanner of
    [json.decoder] and [json.scanner], without floats. It is not called by
    the backend; the round-trip property of the serialised columns is
    stated with it. *)





Definition is_high_surrogate (u : N) : bool := (55296 <=? u) && (u <=? 56319).
Definition is_low_surrogate (u : N) : bool := (56320 <=? u) && (u <=? 57343).





Definition is_digit (c : N) : bool := (48 <=? c) && (c <=? 57).









(** The values [json.loads] builds from a body of valid Unicode text: the
    keys of a dict are distinct, every code point is below 0x110000, and no
    string holds a high surrogate directly followed by a low surrogate (the
    decoder joins such a pair of escapes into one code point; the two stay
    apart only when the body carried them as raw, ill-formed bytes). *)

Fixpoint no_surrogate_pair (s : pystr) : bool :=
  match s with
  | a :: r =>
      match r with
      | b :: _ => negb (is_high_surrogate a && is_low_surrogate b)
      | [] => true
      end && no_surrogate_pair r
  | [] => true
  end.

Definition str_wf (s : pystr) : bool :=
  forallb (fun c => c <? 1114112) s && no_surrogate_pair s.

Fixpoint keys_distinct (ks : list pystr) : bool :=
  match ks with
  | [] => true
  | k :: r => negb (bool_decide (k ∈ r)) && keys_distinct r
  end.

Fixpoint py_wf (v : pyval) : bool :=
  match v with
  | PyStr s => str_wf s
  | PyList l => forallb py_wf l
  | PyDict d =>
      keys_distinct (map fst d) &&
      forallb (fun kv => str_wf (fst kv) && py_wf (snd kv)) d
  | _ => true
  end.








(** One [key: value] member of the text of a dict. *)
Definition dumps_member (kv : pystr * pyval) : pystr :=
  encode_basestring_ascii (fst kv) ++ py ": " ++ json_dumps (snd kv).

(** ** [datetime]

    A naive [datetime.datetime], as [datetime.datetime.now()] returns it. *)

Record datetime : Type := {
  year : N; month : N; day : N;
  hour : N; minute : N; second : N; microsecond : N
}.

Definition is_leap (y : N) : bool :=
  (y mod 4 =? 0) && (negb (y mod 100 =? 0) || (y mod 400 =? 0)).

Definition days_in_month (y m : N) : N :=
  if m =? 2 then (if is_leap y then 29 else 28)
  else if (m =? 4) || (m =? 6) || (m =? 9) || (m =? 11) then 30
  else 31.

(** The field ranges the [datetime] constructor enforces. *)
Definition datetime_valid (d : datetime) : bool :=
  (1 <=? year d) && (year d <=? 9999) &&
  (1 <=? month d) && (month d <=? 12) &&
  (1 <=? day d) && (day d <=? days_in_month (year d) (month d)) &&
  (hour d <? 24) && (minute d <? 60) && (second d <? 60) &&
  (microsecond d <? 1000000).

(** ['%0wd' % n] for a field that fits in [w] digits. *)
Fixpoint zero_padded (w : nat) (n : N) : pystr :=
  match w with
  | O => []
  | S w' => zero_padded w' (n / 10) ++ [48 + n mod 10]
  end.

(** [datetime.isoformat()]: [YYYY-MM-DDTHH:MM:SS], and [.ffffff] when the
    microsecond is not zero. *)
Definition isoformat (d : datetime) : pystr :=
  zero_padded 4 (year d) ++ [45] ++ zero_padded 2 (month d) ++ [45] ++
  zero_padded 2 (day d) ++ [84] ++
  zero_padded 2 (hour d) ++ [58] ++ zero_padded 2 (minute d) ++ [58] ++
  zero_padded 2 (second d) ++
  (if microsecond d =? 0 then [] else [46] ++ zero_padded 6 (microsecond d)).

(** Reading [w] decimal digits. *)
Fixpoint read_digits (w : nat) (acc : N) (s : pystr) : option (N * pystr) :=
  match w with
  | O => Some (acc, s)
  | S w' =>
      match s with
      | c :: r =>
          if is_digit c then read_digits w' (acc * 10 + (c - 48)) r else None
      | [] => None
      end
  end.

Definition expect (c : N) (s : pystr) : option pystr :=
  match s with
  | c' :: r => if c' =? c then Some r else None
  | [] => None
  end.

(** [datetime.fromisoformat] on the format [isoformat] writes. It is not
    called by the backend; it states that a timestamp column parses. *)
Definition fromisoformat (s : pystr) : option datetime :=
  '(y, s) ← read_digits 4 0 s; s ← expect 45 s;
  '(mo, s) ← read_digits 2 0 s; s ← expect 45 s;
  '(d, s) ← read_digits 2 0 s; s ← expect 84 s;
  '(h, s) ← read_digits 2 0 s; s ← expect 58 s;
  '(mi, s) ← read_digits 2 0 s; s ← expect 58 s;
  '(se, s) ← read_digits 2 0 s;
  '(us, s) ← match s with
             | [] => Some (0, [])
             | _ :: _ => s ← expect 46 s; read_digits 6 0 s
             end;
  let d := {| year := y; month := mo; day := d; hour := h; minute := mi;
              second := se; microsecond := us |} in
  match s with
  | [] => if datetime_valid d then Some d else None
  | _ :: _ => None
  end.

(** ** [os.path] (posixpath) *)

Definition sep : N := 47.

Definition startswith_sep (p : pystr) : bool :=
  match p with
  | c :: _ => c =? sep
  | [] => false
  end.

Definition endswith_sep (p : pystr) : bool := startswith_sep (rev p).

(** [os.path.join(a, b)] *)
Definition os_path_join (a b : pystr) : pystr :=
  if startswith_sep b then b
  else if bool_decide (a = []) || endswith_sep a then a ++ b
  else a ++ [sep] ++ b.

Fixpoint lstrip_sep (p : pystr) : pystr :=
  match p with
  | c :: r => if c =? sep then lstrip_sep r else p
  | [] => []
  end.

(** [p.rstrip('/')] *)
Definition rstrip_sep (p : pystr) : pystr := rev (lstrip_sep (rev p)).

Fixpoint drop_to_sep (p : pystr) : pystr :=
  match p with
  | c :: r => if c =? sep then p else drop_to_sep r
  | [] => []
  end.

(** [p[:p.rfind('/') + 1]] *)
Definition upto_last_sep (p : pystr) : pystr := rev (drop_to_sep (rev p)).

(** [os.path.dirname(p)] *)
Definition os_path_dirname (p : pystr) : pystr :=
  let head := upto_last_sep p in
  if negb (bool_decide (head = [])) && negb (bool_decide (lstrip_sep head = []))
  then rstrip_sep head
  else head.

(** The directories [os.makedirs(d)] visits, outermost first: every
    non-empty prefix of [d] that ends before a separator, and [d] itself.
    [pre] is the part of the path already read. *)
Fixpoint path_chain (pre rest : pystr) : list pystr :=
  match rest with
  | [] => if bool_decide (pre = []) then [] else [pre]
  | c :: r =>
      (if (c =? sep) && negb (bool_decide (pre = [])) then [pre] else []) ++
      path_chain (pre ++ [c]) r
  end.

(** ** The file system and the CSV files

    A path names a directory or a regular file. A CSV file is the list of
    the records written to it; a record is the list of the values handed to
    the writer, one per column ([csv] renders [None] as the empty field and
    any other value with [str]). Paths are compared as they are spelled.

    Every I/O call is atomic: it takes full effect or raises and changes
    nothing. Whether it raises for a reason outside this model (permissions,
    a full disk, an unencodable character) is read from the environment. *)

Abbreviation record := (list pyval).

Inductive node : Type :=
| Dir
| File (records : list record).

Abbreviation filesystem := (gmap pystr node).

Record io_env : Type := {
  (** the successive readings of [datetime.datetime.now()] *)
  now_first : datetime;
  now_second : datetime;
  (** [os.makedirs] raises [OSError] *)
  makedirs_fails : bool;
  (** creating the file and writing its header raises [OSError] *)
  create_fails : bool;
  (** opening the file for appending, or writing the row, raises *)
  append_fault : option exn
}.

Definition os_path_exists (fs : filesystem) (p : pystr) : bool :=
  bool_decide (is_Some (fs !! p)).

Definition is_file (fs : filesystem) (p : pystr) : bool :=
  match fs !! p with
  | Some (File _) => true
  | _ => false
  end.

Definition mkdir_if_missing (fs : filesystem) (p : pystr) : filesystem :=
  match fs !! p with
  | None => <[p := Dir]> fs
  | Some _ => fs
  end.

(** [os.makedirs(d, exist_ok=True)]: [FileExistsError] or
    [NotADirectoryError] (both [OSError]) when a component is a regular
    file. *)
Definition os_makedirs (e : io_env) (d : pystr) (fs : filesystem)
    : result unit * filesystem :=
  if makedirs_fails e then (Raise OSError, fs)
  else if existsb (is_file fs) (path_chain [] d) then (Raise OSError, fs)
  else (Ok tt, fold_left mkdir_if_missing (path_chain [] d) fs).

(** [with open(p, 'w', ...) as f: csv.writer(f).writerow(header)] *)
Definition write_header (e : io_env) (p : pystr) (header : list pystr)
    (fs : filesystem) : result unit * filesystem :=
  if create_fails e then (Raise OSError, fs)
  else
    match fs !! p with
    | Some Dir => (Raise OSError, fs)
    | _ => (Ok tt, <[p := File [map PyStr header]]> fs)
    end.

(** [DictWriter._dict_to_list] with [extrasaction='raise'] and
    [restval='']. *)
Definition dict_to_list (fieldnames : list pystr) (rowdict : pydict)
    : result record :=
  if forallb (fun k => bool_decide (k ∈ fieldnames)) (dict_keys rowdict)
  then Ok (map (fun key => dict_get rowdict key (PyStr [])) fieldnames)
  else Raise (ValueError (py "dict contains fields not in fieldnames")).

(** [with open(p, 'a', ...) as f:
       csv.DictWriter(f, fieldnames=fieldnames).writerow(rowdict)] *)
Definition append_row (e : io_env) (p : pystr) (fieldnames : list pystr)
    (rowdict : pydict) (fs : filesystem) : result unit * filesystem :=
  match append_fault e with
  | Some ex => (Raise ex, fs)
  | None =>
      match fs !! p with
      | Some Dir => (Raise OSError, fs)
      | Some (File records) =>
          match dict_to_list fieldnames rowdict with
          | Ok r => (Ok tt, <[p := File (records ++ [r])]> fs)
          | Raise ex => (Raise ex, fs)
          end
      | None =>
          match dict_to_list fieldnames rowdict with
          | Ok r => (Ok tt, <[p := File [r]]> fs)
          | Raise ex => (Raise ex, <[p := File []]> fs)
          end
      end
  end.

(** ** Flask

    What a view reads from [flask.request] and what it returns.
    [get_json = None] stands for [flask.request.get_json()] raising
    [BadRequest] on a body that does not parse; Flask answers such an
    exception with its own 400 response. *)

Record request : Type := {
  is_json : bool;
  get_json : option pyval
}.

Inductive response : Type :=
| Response (status : Z) (body : pydict)
| Aborted (status : Z).

Definition status_code (r : response) : Z :=
  match r with
  | Response status _ => status
  | Aborted status => status
  end.

(** [flask.jsonify({"error": msg}), status] *)
Definition error_response (status : Z) (msg : pystr) : response :=
  Response status [(py "error", PyStr msg)].

Definition message_response (status : Z) (msg : pystr) : response :=
  Response status [(py "message", PyStr msg)].

(** ** [backend_app.py] *)

(** The two routes of the application, and a request as the server
    handles it: the route it was posted to, the environment its handler
    runs in, and what the handler reads from [flask.request]. *)
Inductive endpoint : Type :=
| SaveData
| SaveSuggestion.

#[global] Instance endpoint_eq_dec : EqDecision endpoint.
Proof. solve_decision. Defined.

Record call : Type := {
  route : endpoint;
  env : io_env;
  sent : request
}.

Section Backend.

(** [os.environ.get('USER')] at import time. *)
Variable USER : option pystr.

Definition username : pystr :=
  default (py "your_pythonanywhere_username") USER.

Definition DATA_DIR : pystr :=
  py "/home/" ++ username ++ py "/calculator_data".

Definition EVAL_DATA_FILE : pystr :=
  os_path_join DATA_DIR (py "calculator_data.csv").

Definition EVAL_CSV_HEADER : list pystr :=
  map py
    ["researchId"; "timestamp"; "age"; "sex"; "renalInputMethod";
     "serumCreatinine"; "eGFR"; "renalStatus"; "fallsHistory";
     "knownMedicationsJson"; "otherMedicationsJson"; "totalACB";
     "beersAlertsCount"; "stoppAlertsCount"]%string.

Definition SUGGESTIONS_FILE : pystr :=
  os_path_join DATA_DIR (py "suggestions.csv").

Definition SUGGESTIONS_HEADER : list pystr :=
  map py ["timestamp"; "medicationName"; "details"; "email"]%string.

(** The body of the [try] in [initialize_csv]. *)
Definition initialize_csv_body (e : io_env) (file_path : pystr)
    (header : list pystr) (fs : filesystem) : result unit * filesystem :=
  let dir_name := os_path_dirname file_path in
  let '(made, fs1) :=
    if truthy (PyStr dir_name) then os_makedirs e dir_name fs
    else (Ok tt, fs) in
  match made with
  | Raise ex => (Raise ex, fs1)
  | Ok _ =>
      if negb (os_path_exists fs1 file_path)
      then write_header e file_path header fs1
      else (Ok tt, fs1)
  end.

(** [initialize_csv]: an [OSError] is reported and swallowed. *)
Definition initialize_csv (e : io_env) (file_path : pystr)
    (header : list pystr) (fs : filesystem) : result unit * filesystem :=
  match initialize_csv_body e file_path header fs with
  | (Raise OSError, fs') => (Ok tt, fs')
  | out => out
  end.

(** [{key: row_data.get(key) for key in header}] *)
Definition final_row_of (header : list pystr) (row_data : pydict) : pydict :=
  dict_of_items (map (fun key => (key, dict_get row_data key PyNone)) header).

(** The first [try] block of [save_data]. *)
Definition eval_final_row (e : io_env) (data : pyval) : result pydict :=
  researchId ←
    py_get data (py "researchId")
      (PyStr (py "MISSING_ID_" ++ isoformat (now_first e)));
  timestamp ←
    py_get data (py "timestamp") (PyStr (isoformat (now_second e)));
  age ← py_get data (py "age") PyNone;
  sex ← py_get data (py "sex") PyNone;
  renalInputMethod ← py_get data (py "renalInputMethod") PyNone;
  serumCreatinine ← py_get data (py "serumCreatinine") PyNone;
  eGFR ← py_get data (py "eGFR") PyNone;
  renalStatus ← py_get data (py "renalStatus") PyNone;
  fallsHistory ← py_get data (py "fallsHistory") PyNone;
  knownMedications ← py_get data (py "knownMedications") (PyList []);
  otherMedications ← py_get data (py "otherMedications") (PyList []);
  results1 ← py_get data (py "results") (PyDict []);
  totalACB ← py_get results1 (py "totalACB") PyNone;
  results2 ← py_get data (py "results") (PyDict []);
  beersAlerts ← py_get results2 (py "beersAlerts") PyNone;
  results3 ← py_get data (py "results") (PyDict []);
  stoppAlerts ← py_get results3 (py "stoppAlerts") PyNone;
  let row_data :=
    dict_of_items
      [(py "researchId", researchId);
       (py "timestamp", timestamp);
       (py "age", age);
       (py "sex", sex);
       (py "renalInputMethod", renalInputMethod);
       (py "serumCreatinine", serumCreatinine);
       (py "eGFR", eGFR);
       (py "renalStatus", renalStatus);
       (py "fallsHistory", fallsHistory);
       (py "knownMedicationsJson", PyStr (json_dumps knownMedications));
       (py "otherMedicationsJson", PyStr (json_dumps otherMedications));
       (py "totalACB", totalACB);
       (py "beersAlertsCount", beersAlerts);
       (py "stoppAlertsCount", stoppAlerts)] in
  Ok (final_row_of EVAL_CSV_HEADER row_data).

(** [save_data]: the view of [POST /save_data]. An exception that leaves
    the view is answered by Flask itself: 400 for the [BadRequest] of
    [get_json], 500 for anything else. *)
Definition save_data (e : io_env) (req : request) (fs : filesystem)
    : response * filesystem :=
  match initialize_csv e EVAL_DATA_FILE EVAL_CSV_HEADER fs with
  | (Raise _, fs1) => (Aborted 500, fs1)
  | (Ok _, fs1) =>
      if negb (is_json req) then
        (error_response 400 (py "Request must be JSON"), fs1)
      else
        match get_json req with
        | None => (Aborted 400, fs1)
        | Some data =>
            match eval_final_row e data with
            | Raise _ => (error_response 400 (py "Invalid data format"), fs1)
            | Ok final_row =>
                if negb (os_path_exists fs1 EVAL_DATA_FILE) then
                  (error_response 500 (py "Could not access data storage"),
                   fs1)
                else
                  match append_row e EVAL_DATA_FILE EVAL_CSV_HEADER
                          final_row fs1 with
                  | (Ok _, fs2) =>
                      (message_response 200
                         (py "Evaluation data saved successfully"), fs2)
                  | (Raise OSError, fs2) =>
                      (error_response 500
                         (py "Could not save evaluation data due to file error"),
                       fs2)
                  | (Raise _, fs2) =>
                      (error_response 500
                         (py "An internal server error occurred"), fs2)
                  end
            end
        end
  end.

(** The first [try] block of [save_suggestion]. *)
Definition suggestion_final_row (e : io_env) (data : pyval) : result pydict :=
  med_name ← py_get data (py "medicationName") PyNone;
  details ← py_get data (py "details") PyNone;
  if negb (truthy med_name) || negb (truthy details) then
    Raise (ValueError
      (py "Missing required suggestion fields (medicationName or details)"))
  else
    timestamp ←
      py_get data (py "timestamp") (PyStr (isoformat (now_first e)));
    email ← py_get data (py "email") PyNone;
    let row_data :=
      dict_of_items
        [(py "timestamp", timestamp);
         (py "medicationName", med_name);
         (py "details", details);
         (py "email", email)] in
    Ok (final_row_of SUGGESTIONS_HEADER row_data).

(** [save_suggestion]: the view of [POST /save_suggestion]. Here a
    [ValueError] of the first [try] block is answered with its own
    message. *)
Definition save_suggestion (e : io_env) (req : request) (fs : filesystem)
    : response * filesystem :=
  match initialize_csv e SUGGESTIONS_FILE SUGGESTIONS_HEADER fs with
  | (Raise _, fs1) => (Aborted 500, fs1)
  | (Ok _, fs1) =>
      if negb (is_json req) then
        (error_response 400 (py "Request must be JSON"), fs1)
      else
        match get_json req with
        | None => (Aborted 400, fs1)
        | Some data =>
            match suggestion_final_row e data with
            | Raise (ValueError ve) => (error_response 400 ve, fs1)
            | Raise _ =>
                (error_response 400 (py "Invalid suggestion data format"),
                 fs1)
            | Ok final_row =>
                if negb (os_path_exists fs1 SUGGESTIONS_FILE) then
                  (error_response 500
                     (py "Could not access suggestion storage"), fs1)
                else
                  match append_row e SUGGESTIONS_FILE SUGGESTIONS_HEADER
                          final_row fs1 with
                  | (Ok _, fs2) =>
                      (message_response 200
                         (py "Suggestion saved successfully"), fs2)
                  | (Raise OSError, fs2) =>
                      (error_response 500
                         (py "Could not save suggestion due to file error"),
                       fs2)
                  | (Raise _, fs2) =>
                      (error_response 500
                         (py "An internal server error occurred"), fs2)
                  end
            end
        end
  end.

(** *** The server: requests are handled one after the other *)

Definition handle (c : call) (fs : filesystem) : response * filesystem :=
  match route c with
  | SaveData => save_data (env c) (sent c) fs
  | SaveSuggestion => save_suggestion (env c) (sent c) fs
  end.

Fixpoint serve (calls : list call) (fs : filesystem)
    : list response * filesystem :=
  match calls with
  | [] => ([], fs)
  | c :: rest =>
      let '(r, fs1) := handle c fs in
      let '(rs, fs2) := serve rest fs1 in
      (r :: rs, fs2)
  end.

(** The store of each endpoint, and the row an accepted call appends. *)
Definition store_path (k : endpoint) : pystr :=
  match k with
  | SaveData => EVAL_DATA_FILE
  | SaveSuggestion => SUGGESTIONS_FILE
  end.

(** The file name of each store inside [DATA_DIR]. *)
Definition store_file (k : endpoint) : pystr :=
  match k with
  | SaveData => py "calculator_data.csv"
  | SaveSuggestion => py "suggestions.csv"
  end.

Definition store_header (k : endpoint) : list pystr :=
  match k with
  | SaveData => EVAL_CSV_HEADER
  | SaveSuggestion => SUGGESTIONS_HEADER
  end.

Definition store_records (k : endpoint) (fs : filesystem)
    : option (list record) :=
  match fs !! store_path k with
  | Some (File records) => Some records
  | _ => None
  end.

(** The record of an evaluation payload [d] whose [results] entry is the
    dict [res], written out column by column after [EVAL_CSV_HEADER]. *)
Definition eval_record (e : io_env) (d res : pydict) : record :=
  [dict_get d (py "researchId")
     (PyStr (py "MISSING_ID_" ++ isoformat (now_first e)));
   dict_get d (py "timestamp") (PyStr (isoformat (now_second e)));
   dict_get d (py "age") PyNone;
   dict_get d (py "sex") PyNone;
   dict_get d (py "renalInputMethod") PyNone;
   dict_get d (py "serumCreatinine") PyNone;
   dict_get d (py "eGFR") PyNone;
   dict_get d (py "renalStatus") PyNone;
   dict_get d (py "fallsHistory") PyNone;
   PyStr (json_dumps (dict_get d (py "knownMedications") (PyList [])));
   PyStr (json_dumps (dict_get d (py "otherMedications") (PyList [])));
   dict_get res (py "totalACB") PyNone;
   dict_get res (py "beersAlerts") PyNone;
   dict_get res (py "stoppAlerts") PyNone].

(** The record of a suggestion payload [d], written out column by column
    after [SUGGESTIONS_HEADER]. *)
Definition suggestion_record (e : io_env) (d : pydict) : record :=
  [dict_get d (py "timestamp") (PyStr (isoformat (now_first e)));
   dict_get d (py "medicationName") PyNone;
   dict_get d (py "details") PyNone;
   dict_get d (py "email") PyNone].

Definition row_builder (k : endpoint) : io_env -> pyval -> result pydict :=
  match k with
  | SaveData => eval_final_row
  | SaveSuggestion => suggestion_final_row
  end.

(** The record the handler of [c] hands to the CSV writer. *)
Definition appended_record (c : call) : record :=
  match get_json (sent c) with
  | Some data =>
      match row_builder (route c) (env c) data with
      | Ok final_row =>
          match dict_to_list (store_header (route c)) final_row with
          | Ok r => r
          | Raise _ => []
          end
      | Raise _ => []
      end
  | None => []
  end.

Definition accepted (k : endpoint) (c : call) (r : response) : bool :=
  bool_decide (route c = k) && (status_code r =? 200)%Z.

(** The records of the calls to [k] that were answered with 200, in the
    order the calls were handled. *)
Fixpoint accepted_records (k : endpoint) (calls : list call)
    (rs : list response) : list record :=
  match calls, rs with
  | c :: calls', r :: rs' =>
      (if accepted k c r then [appended_record c] else []) ++
      accepted_records k calls' rs'
  | _, _ => []
  end.

(** The number of calls to [k] that were answered with 200. *)
Fixpoint accepted_count (k : endpoint) (calls : list call)
    (rs : list response) : nat :=
  match calls, rs with
  | c :: calls', r :: rs' =>
      (if accepted k c r then 1 else 0) + accepted_count k calls' rs'
  | _, _ => 0
  end.

(** The value of column [name] in a record laid out after [header]. *)
Fixpoint column (header : list pystr) (name : pystr) (r : record)
    : option pyval :=
  match header, r with
  | h :: header', v :: r' =>
      if decide (h = name) then Some v else column header' name r'
  | _, _ => None
  end.

(** The data rows of a store: what follows its header row. *)
Definition data_rows (k : endpoint) (fs : filesystem) : list record :=
  match store_records k fs with
  | Some (_ :: rows) => rows
  | _ => []
  end.


(** Field [k] of payload [d] is absent, or holds a value Python counts as
    false: [None], the empty string, an empty list or dict, [0], [False]. *)
Definition missing (d : pydict) (k : pystr) : Prop :=
  truthy (dict_get d k PyNone) = false.


(** The state a handler works in, after its call of [initialize_csv]. *)
Definition ready (k : endpoint) (e : io_env) (fs : filesystem) : filesystem :=
  snd (initialize_csv e (store_path k) (store_header k) fs).

End Backend.

(** ** Sample inputs *)

Definition sample_user : option pystr := Some (py "alice").

Definition sample_time : datetime :=
  {| year := 2024; month := 2; day := 29;
     hour := 12; minute := 30; second := 5; microsecond := 250 |}.

Definition sample_later : datetime :=
  {| year := 2024; month := 2; day := 29;
     hour := 12; minute := 30; second := 5; microsecond := 251 |}.

(** An environment in which no I/O call fails. *)
Definition calm : io_env :=
  {| now_first := sample_time; now_second := sample_later;
     makedirs_fails := false; create_fails := false; append_fault := None |}.


Definition json_request (v : pyval) : request :=
  {| is_json := true; get_json := Some v |}.


Definition aspirin : pyval :=
  PyList [PyDict [(py "name", PyStr (py "Aspirin"));
                  (py "dose", PyStr (py "75mg"))]].

Definition evaluation_payload : pydict :=
  [(py "sex", PyStr (py "F")); (py "knownMedications", aspirin);
   (py "results", PyDict [(py "totalACB", PyInt 3)])].

Definition suggestion_payload : pydict :=
  [(py "medicationName", PyStr (py "Aspirin"));
   (py "details", PyStr (py "interacts with warfarin"))].

Definition post (k : endpoint) (e : io_env) (req : request) : call :=
  {| route := k; env := e; sent := req |}.

(** ** The rest of [backend_app.py] *)

Section Startup.

Variable USER : option pystr.


End Startup.

(** The keys each handler reads from its payload. *)
Definition EVAL_FIELDS : list pystr :=
  map py
    ["researchId"; "timestamp"; "age"; "sex"; "renalInputMethod";
     "serumCreatinine"; "eGFR"; "renalStatus"; "fallsHistory";
     "knownMedications"; "otherMedications"; "results"]%string.

Definition SUGGESTION_FIELDS : list pystr :=
  map py ["medicationName"; "details"; "timestamp"; "email"]%string.

Definition payload_fields (k : endpoint) : list pystr :=
  match k with
  | SaveData => EVAL_FIELDS
  | SaveSuggestion => SUGGESTION_FIELDS
  end.



(** A printable ASCII character: what a UTF-8 writer always encodes and a
    CSV reader never takes for a line break. *)
Definition is_printable_ascii (c : N) : bool := (32 <=? c) && (c <=? 126).




Section Views.

Variable USER : option pystr.


End Views.

Section Widths.

Variable USER : option pystr.


End Widths.

(** * Properties *)

(** ** The JSON text of a value reads back as the value *)

Section JsonRoundTrip.












(** *** Integers *)











(** *** Values *)

(** Induction on a value gives the property for the items of a list and
    for the values of a dict. *)
Lemma pyval_ind (P : pyval -> Prop) :
  P PyNone ->
  (forall b, P (PyBool b)) ->
  (forall z, P (PyInt z)) ->
  (forall s, P (PyStr s)) ->
  (forall l, Forall P l -> P (PyList l)) ->
  (forall d, Forall (fun kv => P (snd kv)) d -> P (PyDict d)) ->
  forall v, P v.
Proof.
  intros HNone HBool HInt HStr HList HDict.
  refine (fix IH (v : pyval) : P v :=
    match v with
    | PyNone => HNone
    | PyBool b => HBool b
    | PyInt z => HInt z
    | PyStr s => HStr s
    | PyList l =>
        HList l
          ((fix items (l : list pyval) : Forall P l :=
              match l with
              | [] => ltac:(constructor)
              | x :: l' =>
                  ltac:(constructor; [exact (IH x)|exact (items l')])
              end) l)
    | PyDict d =>
        HDict d
          ((fix members (d : pydict) : Forall (fun kv => P (snd kv)) d :=
              match d with
              | [] => ltac:(constructor)
              | kv :: d' =>
                  ltac:(constructor; [exact (IH (snd kv))|exact (members d')])
              end) d)
    end).
Qed.




















Lemma json_dumps_dict d :
  json_dumps (PyDict d) =
  [123] ++ join_with (py ", ") (map dumps_member d) ++ [125].
Proof. reflexivity. Qed.




End JsonRoundTrip.

(** ** A timestamp written by [isoformat] parses *)

Section Timestamps.

Lemma read_digits_app w1 : forall w2 acc s,
  read_digits (w1 + w2) acc s =
  match read_digits w1 acc s with
  | Some (a, r) => read_digits w2 a r
  | None => None
  end.
Proof.
  induction w1 as [|w1 IH]; intros w2 acc s; [reflexivity|].
  cbn [Nat.add read_digits]. destruct s as [|c r]; [reflexivity|].
  destruct (is_digit c); [apply IH|reflexivity].
Qed.

Lemma read_digits_snoc w acc s :
  read_digits (S w) acc s =
  match read_digits w acc s with
  | Some (a, r) => read_digits 1 a r
  | None => None
  end.
Proof. rewrite <- read_digits_app. f_equal. lia. Qed.

Lemma read_digits_zero_padded w : forall n acc rest,
  n < 10 ^ N.of_nat w ->
  read_digits w acc (zero_padded w n ++ rest)
  = Some (acc * 10 ^ N.of_nat w + n, rest).
Proof.
  induction w as [|w IH]; intros n acc rest Hn.
  - cbn in *. f_equal. f_equal. lia.
  - rewrite read_digits_snoc. cbn [zero_padded]. rewrite <- app_assoc.
    replace (N.of_nat (S w)) with (N.succ (N.of_nat w)) in * by lia.
    rewrite N.pow_succ_r' in *.
    pose proof (N.div_mod n 10 ltac:(lia)) as Hdm.
    pose proof (N.mod_lt n 10 ltac:(lia)) as Hr.
    set (q := n / 10) in *. set (r := n mod 10) in *. clearbody q r.
    rewrite IH by nia.
    cbn [app read_digits]. unfold is_digit.
    destruct (N.leb_spec 48 (48 + r)); [|lia].
    destruct (N.leb_spec (48 + r) 57); [|lia].
    cbn [andb]. f_equal. f_equal. nia.
Qed.

Lemma datetime_valid_bounds d :
  datetime_valid d = true ->
  year d < 10000 /\ month d < 100 /\ day d < 100 /\ hour d < 100 /\
  minute d < 100 /\ second d < 100 /\ microsecond d < 1000000.
Proof.
  unfold datetime_valid. rewrite !andb_true_iff.
  intros [[[[[[[[[_ Hy] _] Hmo] _] Hd] Hh] Hmi] Hs] Hus].
  apply N.leb_le in Hy, Hmo, Hd. apply N.ltb_lt in Hh, Hmi, Hs, Hus.
  assert (days_in_month (year d) (month d) <= 31).
  { unfold days_in_month.
    repeat match goal with |- context [if ?b then _ else _] => destruct b end;
      lia. }
  lia.
Qed.

(** [datetime.fromisoformat(d.isoformat()) == d] *)
Lemma fromisoformat_isoformat d :
  datetime_valid d = true -> fromisoformat (isoformat d) = Some d.
Proof.
  intros Hvalid.
  destruct (datetime_valid_bounds d Hvalid)
    as (Hy & Hmo & Hd & Hh & Hmi & Hs & Hus).
  unfold isoformat, fromisoformat.
  rewrite read_digits_zero_padded by exact Hy.
  cbn [mbind option_bind app expect N.eqb Pos.eqb].
  rewrite read_digits_zero_padded by exact Hmo.
  cbn [mbind option_bind app expect N.eqb Pos.eqb].
  rewrite read_digits_zero_padded by exact Hd.
  cbn [mbind option_bind app expect N.eqb Pos.eqb].
  rewrite read_digits_zero_padded by exact Hh.
  cbn [mbind option_bind app expect N.eqb Pos.eqb].
  rewrite read_digits_zero_padded by exact Hmi.
  cbn [mbind option_bind app expect N.eqb Pos.eqb].
  rewrite read_digits_zero_padded by exact Hs.
  cbn [mbind option_bind N.mul N.add].
  destruct d as [y mo dd h mi se us].
  cbn [year month day hour minute second microsecond] in *.
  destruct (N.eqb_spec us 0) as [->|Hnz].
  - cbn [mbind option_bind]. rewrite !N.mul_0_l, !N.add_0_l.
    rewrite Hvalid. reflexivity.
  - cbn [app expect N.eqb Pos.eqb mbind option_bind].
    rewrite <- (app_nil_r (zero_padded 6 us)).
    rewrite read_digits_zero_padded by exact Hus.
    cbn [mbind option_bind]. rewrite !N.mul_0_l, !N.add_0_l.
    rewrite Hvalid. reflexivity.
Qed.


End Timestamps.

(** ** The paths of the two stores *)

Section Paths.

Variable USER : option pystr.

Lemma DATA_DIR_rev :
  rev (DATA_DIR USER) =
  rev (py "/calculator_data") ++ rev (username USER) ++ rev (py "/home/").
Proof.
  unfold DATA_DIR. rewrite !rev_app_distr, <- app_assoc. reflexivity.
Qed.

Lemma DATA_DIR_nonempty : DATA_DIR USER <> [].
Proof. unfold DATA_DIR. discriminate. Qed.

Lemma join_DATA_DIR name :
  startswith_sep name = false ->
  os_path_join (DATA_DIR USER) name = DATA_DIR USER ++ [sep] ++ name.
Proof.
  intros Hname. unfold os_path_join. rewrite Hname.
  rewrite bool_decide_eq_false_2 by apply DATA_DIR_nonempty.
  unfold endswith_sep. rewrite DATA_DIR_rev. reflexivity.
Qed.

Lemma store_path_eq k :
  store_path USER k = DATA_DIR USER ++ [sep] ++ store_file k.
Proof. destruct k; apply join_DATA_DIR; reflexivity. Qed.

Lemma store_paths_differ : EVAL_DATA_FILE USER <> SUGGESTIONS_FILE USER.
Proof.
  change (store_path USER SaveData <> store_path USER SaveSuggestion).
  rewrite !store_path_eq. intros H. apply app_inv_head in H. discriminate.
Qed.

Lemma store_path_inj k k' : store_path USER k = store_path USER k' -> k = k'.
Proof.
  destruct k, k'; try reflexivity; intros H; exfalso.
  - apply store_paths_differ. exact H.
  - apply store_paths_differ. symmetry. exact H.
Qed.

Lemma dirname_store_path k :
  os_path_dirname (store_path USER k) = DATA_DIR USER.
Proof.
  assert (Hdrop : forall X,
            drop_to_sep (rev (store_file k) ++ sep :: X) = sep :: X)
    by (intros X; destruct k; reflexivity).
  assert (Hhead : upto_last_sep (store_path USER k) = DATA_DIR USER ++ [sep]).
  { rewrite store_path_eq. unfold upto_last_sep.
    rewrite !rev_app_distr, <- app_assoc. cbn [rev app]. rewrite Hdrop.
    cbn [rev]. rewrite rev_involutive. reflexivity. }
  unfold os_path_dirname. rewrite Hhead.
  assert (Hne : DATA_DIR USER ++ [sep] <> []) by (unfold DATA_DIR; discriminate).
  assert (Hls : lstrip_sep (DATA_DIR USER ++ [sep]) <> [])
    by (unfold DATA_DIR; discriminate).
  rewrite !bool_decide_eq_false_2 by assumption. cbn [negb andb].
  unfold rstrip_sep. rewrite rev_app_distr, DATA_DIR_rev.
  assert (Hstrip : forall Y,
            lstrip_sep (rev [sep] ++ rev (py "/calculator_data") ++ Y)
            = rev (py "/calculator_data") ++ Y) by reflexivity.
  rewrite Hstrip. rewrite <- DATA_DIR_rev. apply rev_involutive.
Qed.

End Paths.

(** ** The file system under the store initialiser *)

Section FileSystem.

Implicit Types (fs : gmap pystr node) (p : pystr).

Lemma path_chain_length rest : forall pre a,
  a ∈ path_chain pre rest -> (length a <= length pre + length rest)%nat.
Proof.
  induction rest as [|c r IH]; intros pre a Ha; cbn [path_chain] in Ha.
  - destruct (bool_decide (pre = [])); [inversion Ha|].
    apply list_elem_of_singleton in Ha. subst. lia.
  - apply elem_of_app in Ha as [Ha|Ha].
    + destruct ((c =? sep) && negb (bool_decide (pre = []))); [|inversion Ha].
      apply list_elem_of_singleton in Ha. subst. lia.
    + apply IH in Ha. rewrite length_app in Ha. cbn [length] in *. lia.
Qed.

Lemma mkdir_if_missing_lookup fs a p :
  mkdir_if_missing fs a !! p = fs !! p \/
  (fs !! p = None /\ mkdir_if_missing fs a !! p = Some Dir /\ p = a).
Proof.
  unfold mkdir_if_missing. destruct (fs !! a) eqn:Ea; [left; reflexivity|].
  destruct (decide (a = p)) as [->|Hne].
  - right. rewrite lookup_insert_eq. auto.
  - left. apply lookup_insert_ne. exact Hne.
Qed.

(** Creating directories only adds directories at paths that were free. *)
Lemma mkdirs_lookup chain : forall fs p,
  fold_left mkdir_if_missing chain fs !! p = fs !! p \/
  (fs !! p = None /\ fold_left mkdir_if_missing chain fs !! p = Some Dir /\
   p ∈ chain).
Proof.
  induction chain as [|a chain IH]; intros fs p; cbn [fold_left];
    [left; reflexivity|].
  destruct (IH (mkdir_if_missing fs a) p) as [E|(E1 & E2 & E3)];
    destruct (mkdir_if_missing_lookup fs a p) as [F|(F1 & F2 & F3)].
  - left. congruence.
  - right. subst a. split; [exact F1|]. split; [congruence|].
    apply list_elem_of_here.
  - right. split; [congruence|]. split; [exact E2|].
    apply list_elem_of_further. exact E3.
  - congruence.
Qed.



Lemma mkdirs_subseteq chain fs : fs ⊆ fold_left mkdir_if_missing chain fs.
Proof.
  apply map_subseteq_spec. intros p n Hp.
  destruct (mkdirs_lookup chain fs p) as [E|(E & _)]; congruence.
Qed.

(** What [os.makedirs] leaves behind. *)
Lemma os_makedirs_spec e d fs :
  os_makedirs e d fs = (Raise OSError, fs) \/
  os_makedirs e d fs
  = (Ok tt, fold_left mkdir_if_missing (path_chain [] d) fs).
Proof.
  unfold os_makedirs. destruct (makedirs_fails e); [left; reflexivity|].
  destruct (existsb _ _); [left|right]; reflexivity.
Qed.

Lemma os_path_exists_true fs p :
  os_path_exists fs p = true <-> is_Some (fs !! p).
Proof. unfold os_path_exists. apply bool_decide_eq_true. Qed.

Lemma os_path_exists_false fs p :
  os_path_exists fs p = false <-> fs !! p = None.
Proof.
  unfold os_path_exists. rewrite bool_decide_eq_false.
  rewrite eq_None_not_Some. reflexivity.
Qed.





End FileSystem.

(** ** The store initialiser *)

Section Initialiser.

Implicit Types (fs : gmap pystr node) (p : pystr).

(** The outcomes of the body of [initialize_csv]: the directories are made
    or not, and then the call raises, finds the file, or creates it with its
    header row. *)
Lemma initialize_csv_body_cases e file_path header fs :
  exists fsA,
    (fsA = fs \/
     fsA = fold_left mkdir_if_missing
             (path_chain [] (os_path_dirname file_path)) fs) /\
    (initialize_csv_body e file_path header fs = (Raise OSError, fsA) \/
     (is_Some (fsA !! file_path) /\
      initialize_csv_body e file_path header fs = (Ok tt, fsA)) \/
     (fsA !! file_path = None /\
      initialize_csv_body e file_path header fs
      = (Ok tt, <[file_path := File [map PyStr header]]> fsA))).
Proof.
  unfold initialize_csv_body.
  set (made := if truthy (PyStr (os_path_dirname file_path))
               then os_makedirs e (os_path_dirname file_path) fs
               else (Ok tt, fs)).
  assert (Hmade : made = (Raise OSError, fs) \/ exists fsA, made = (Ok tt, fsA) /\
            (fsA = fs \/
             fsA = fold_left mkdir_if_missing
                     (path_chain [] (os_path_dirname file_path)) fs)).
  { unfold made. destruct (truthy _).
    - destruct (os_makedirs_spec e (os_path_dirname file_path) fs) as [->| ->];
        [left; reflexivity|right; eauto].
    - right. eauto. }
  destruct Hmade as [->|(fsA & -> & HfsA)].
  - exists fs. split; [left; reflexivity|left; reflexivity].
  - exists fsA. split; [exact HfsA|].
    destruct (os_path_exists fsA file_path) eqn:Ex; cbn [negb].
    + right. left. apply os_path_exists_true in Ex. auto.
    + apply os_path_exists_false in Ex. unfold write_header. rewrite Ex.
      destruct (create_fails e); [left; reflexivity|right; right; auto].
Qed.

(** [initialize_csv] never raises. *)
Lemma initialize_csv_returns e file_path header fs :
  fst (initialize_csv e file_path header fs) = Ok tt.
Proof.
  unfold initialize_csv.
  destruct (initialize_csv_body_cases e file_path header fs)
    as (fsA & _ & [->|[[_ ->]|[_ ->]]]); reflexivity.
Qed.

(** Each path is as it was, or it was free and now holds a directory of
    the chain or the new file with its header row. *)
Lemma initialize_csv_lookup e file_path header fs p :
  let fs1 := snd (initialize_csv e file_path header fs) in
  fs1 !! p = fs !! p \/
  (fs !! p = None /\
   ((fs1 !! p = Some Dir /\
     p ∈ path_chain [] (os_path_dirname file_path)) \/
    (p = file_path /\ fs1 !! p = Some (File [map PyStr header])))).
Proof.
  cbn zeta. unfold initialize_csv.
  destruct (initialize_csv_body_cases e file_path header fs)
    as (fsA & HfsA & Hbody).
  assert (HA : fsA !! p = fs !! p \/
               (fs !! p = None /\ fsA !! p = Some Dir /\
                p ∈ path_chain [] (os_path_dirname file_path))).
  { destruct HfsA as [->| ->]; [left; reflexivity|apply mkdirs_lookup]. }
  destruct Hbody as [->|[[_ ->]|[Hfree ->]]]; cbn [snd].
  1-2: destruct HA as [E|(E1 & E2 & E3)]; [left; exact E|right; auto].
  destruct (decide (file_path = p)) as [<-|Hne].
  - rewrite lookup_insert_eq. right.
    destruct HA as [E|(E1 & E2 & E3)]; [|congruence].
    split; [congruence|]. right. auto.
  - rewrite lookup_insert_ne by exact Hne.
    destruct HA as [E|(E1 & E2 & E3)]; [left; exact E|right; auto].
Qed.

(** [initialize_csv] never deletes, truncates or rewrites what exists. *)
Lemma initialize_csv_subseteq e file_path header fs :
  fs ⊆ snd (initialize_csv e file_path header fs).
Proof.
  apply map_subseteq_spec. intros p n Hp.
  destruct (initialize_csv_lookup e file_path header fs p)
    as [E|(E & _)]; cbn zeta in *; congruence.
Qed.


End Initialiser.

(** ** The two handlers *)

Section Handlers.

Variable USER : option pystr.

Implicit Types (fs : gmap pystr node) (k : endpoint) (c : call).

Lemma store_path_not_in_chain k k' :
  store_path USER k ∉ path_chain [] (os_path_dirname (store_path USER k')).
Proof.
  rewrite dirname_store_path. intros Hin.
  apply path_chain_length in Hin. rewrite store_path_eq in Hin.
  rewrite !length_app in Hin. cbn [length] in Hin. lia.
Qed.


Lemma initialize_csv_ready k e fs :
  initialize_csv e (store_path USER k) (store_header k) fs
  = (Ok tt, ready USER k e fs).
Proof.
  unfold ready.
  pose proof (initialize_csv_returns e (store_path USER k) (store_header k) fs).
  destruct (initialize_csv _ _ _ _) as [r fs1]. cbn [fst snd] in *.
  congruence.
Qed.

(** The initialiser of one store leaves the other store alone. *)
Lemma ready_other k k' e fs :
  k' <> k -> ready USER k e fs !! store_path USER k' = fs !! store_path USER k'.
Proof.
  intros Hne. unfold ready.
  destruct (initialize_csv_lookup e (store_path USER k) (store_header k) fs
              (store_path USER k')) as [E|(_ & [[_ Hin]|[Heq _]])].
  - exact E.
  - exfalso. exact (store_path_not_in_chain _ _ Hin).
  - apply store_path_inj in Heq. contradiction.
Qed.

(** It leaves its own store as it was, or creates it with the header row
    alone. *)
Lemma ready_own k e fs :
  ready USER k e fs !! store_path USER k = fs !! store_path USER k \/
  (fs !! store_path USER k = None /\
   ready USER k e fs !! store_path USER k
   = Some (File [map PyStr (store_header k)])).
Proof.
  unfold ready.
  destruct (initialize_csv_lookup e (store_path USER k) (store_header k) fs
              (store_path USER k)) as [E|(Hfree & [[_ Hin]|[_ E]])].
  - left. exact E.
  - exfalso. exact (store_path_not_in_chain _ _ Hin).
  - right. auto.
Qed.


(** The row of an evaluation payload: a [results] entry that is not a
    dict has no [get]. *)
Lemma eval_final_row_dict e d :
  eval_final_row e (PyDict d) =
  match dict_get d (py "results") (PyDict []) with
  | PyDict res =>
      Ok (final_row_of EVAL_CSV_HEADER
            (dict_of_items (combine EVAL_CSV_HEADER (eval_record e d res))))
  | _ => Raise AttributeError
  end.
Proof.
  unfold eval_final_row. cbn [py_get mbind result_bind].
  destruct (dict_get d (py "results") (PyDict [])); reflexivity.
Qed.

Lemma suggestion_final_row_dict e d :
  suggestion_final_row e (PyDict d) =
  if truthy (dict_get d (py "medicationName") PyNone) &&
     truthy (dict_get d (py "details") PyNone)
  then Ok (final_row_of SUGGESTIONS_HEADER
             (dict_of_items (combine SUGGESTIONS_HEADER
                               (suggestion_record e d))))
  else Raise (ValueError
         (py "Missing required suggestion fields (medicationName or details)")).
Proof.
  unfold suggestion_final_row. cbn [py_get mbind result_bind].
  destruct (truthy (dict_get d (py "medicationName") PyNone));
    destruct (truthy (dict_get d (py "details") PyNone)); reflexivity.
Qed.

(** The writer lays the row out after the header, one value per column. *)
Lemma dict_to_list_eval_row r :
  length r = 14%nat ->
  dict_to_list EVAL_CSV_HEADER
    (final_row_of EVAL_CSV_HEADER
       (dict_of_items (combine EVAL_CSV_HEADER r))) = Ok r.
Proof.
  intros Hlen.
  do 15 (destruct r as [|? r]; try discriminate). reflexivity.
Qed.

Lemma dict_to_list_suggestion_row r :
  length r = 4%nat ->
  dict_to_list SUGGESTIONS_HEADER
    (final_row_of SUGGESTIONS_HEADER
       (dict_of_items (combine SUGGESTIONS_HEADER r))) = Ok r.
Proof.
  intros Hlen.
  do 5 (destruct r as [|? r]; try discriminate). reflexivity.
Qed.

(** What a handler does after [initialize_csv]: it answers 200 exactly
    when it appended the record of its payload to its store; otherwise it
    changes nothing more. *)
Lemma handle_outcome c fs r fs' :
  handle USER c fs = (r, fs') ->
  let k := route c in
  let fs1 := ready USER k (env c) fs in
  (status_code r = 200%Z /\
   exists data final_row recs,
     is_json (sent c) = true /\
     get_json (sent c) = Some data /\
     row_builder k (env c) data = Ok final_row /\
     dict_to_list (store_header k) final_row = Ok (appended_record c) /\
     append_fault (env c) = None /\
     fs1 !! store_path USER k = Some (File recs) /\
     fs' = <[store_path USER k := File (recs ++ [appended_record c])]> fs1) \/
  (status_code r <> 200%Z /\ fs' = fs1).
Proof.
  intros Hh k fs1. unfold handle in Hh. fold k in Hh.
  assert (Hbody :
    (let path := store_path USER k in
     let header := store_header k in
     exists ok_msg denied missing ioerr other,
       (r, fs') =
       if negb (is_json (sent c)) then
         (error_response 400 (py "Request must be JSON"), fs1)
       else
         match get_json (sent c) with
         | None => (Aborted 400, fs1)
         | Some data =>
             match row_builder k (env c) data with
             | Raise ex => (error_response 400 (denied ex), fs1)
             | Ok final_row =>
                 if negb (os_path_exists fs1 path) then
                   (error_response 500 missing, fs1)
                 else
                   match append_row (env c) path header final_row fs1 with
                   | (Ok _, fs2) => (message_response 200 ok_msg, fs2)
                   | (Raise OSError, fs2) => (error_response 500 ioerr, fs2)
                   | (Raise _, fs2) => (error_response 500 other, fs2)
                   end
             end
         end)).
  { cbn zeta. destruct k eqn:Ek.
    - unfold save_data in Hh.
      rewrite (initialize_csv_ready SaveData) in Hh. fold fs1 in Hh.
      eexists _, (fun _ => _), _, _, _. rewrite <- Hh. cbn [row_builder].
      reflexivity.
    - unfold save_suggestion in Hh.
      rewrite (initialize_csv_ready SaveSuggestion) in Hh. fold fs1 in Hh.
      eexists _,
        (fun ex => match ex with
                   | ValueError ve => ve
                   | _ => py "Invalid suggestion data format"
                   end), _, _, _.
      rewrite <- Hh. cbn [row_builder].
      destruct (negb (is_json (sent c))); [reflexivity|].
      destruct (get_json (sent c)) as [data|]; [|reflexivity].
      destruct (suggestion_final_row (env c) data) as [fr|[| |]];
        reflexivity. }
  cbn zeta in Hbody.
  destruct Hbody as (ok_msg & denied & missing & ioerr & other & Hbody).
  clear Hh.
  destruct (is_json (sent c)) eqn:Hj; cbn [negb] in Hbody;
    [|right; inversion Hbody; split; [discriminate|reflexivity]].
  destruct (get_json (sent c)) as [data|] eqn:Hdata;
    [|right; inversion Hbody; split; [discriminate|reflexivity]].
  destruct (row_builder k (env c) data) as [final_row|ex] eqn:Hrow;
    [|right; inversion Hbody; split; [discriminate|reflexivity]].
  destruct (os_path_exists fs1 (store_path USER k)) eqn:Hex; cbn [negb] in Hbody;
    [|right; inversion Hbody; split; [discriminate|reflexivity]].
  apply os_path_exists_true in Hex as [n Hn].
  unfold append_row in Hbody. rewrite Hn in Hbody.
  destruct (append_fault (env c)) as [ex|] eqn:Hfault.
  { right. destruct ex; inversion Hbody; split; (discriminate || reflexivity). }
  destruct n as [|recs].
  { right. inversion Hbody; split; [discriminate|reflexivity]. }
  destruct (dict_to_list (store_header k) final_row) as [rec|ex] eqn:Hrec.
  - left. inversion Hbody; subst. split; [reflexivity|].
    assert (Hrecord : appended_record c = rec).
    { unfold appended_record. fold k. rewrite Hdata, Hrow, Hrec. reflexivity. }
    rewrite Hrecord. exists data, final_row, recs. auto 10.
  - right. destruct ex; inversion Hbody; split; (discriminate || reflexivity).
Qed.

(** One call, seen from the store of [k]: the records the store holds
    grow by the record of the call when it is an accepted call to [k],
    and not at all otherwise; a store that did not exist stays away or
    starts with the header row. *)
Lemma handle_store_step k c fs r fs' :
  handle USER c fs = (r, fs') ->
  let new := if accepted k c r then [appended_record c] else [] in
  match fs !! store_path USER k with
  | Some (File recs) => fs' !! store_path USER k = Some (File (recs ++ new))
  | Some Dir => fs' !! store_path USER k = Some Dir /\ new = []
  | None =>
      (fs' !! store_path USER k = None /\ new = []) \/
      fs' !! store_path USER k
      = Some (File (map PyStr (store_header k) :: new))
  end.
Proof.
  intros Hh. pose proof (handle_outcome c fs r fs' Hh) as Hout.
  cbn zeta in *. unfold accepted.
  destruct (decide (route c = k)) as [Hk|Hk].
  - subst k. rewrite bool_decide_eq_true_2 by reflexivity. cbn [andb].
    destruct Hout as [(Hst & data & fr & recs1 & _ & _ & _ & _ & _ & Hfs1 & ->)
                     |(Hst & ->)].
    + rewrite Hst. cbn [Z.eqb Pos.eqb]. rewrite lookup_insert_eq.
      destruct (ready_own (route c) (env c) fs) as [E|(E1 & E2)].
      * rewrite <- E, Hfs1. reflexivity.
      * rewrite E1. right. rewrite Hfs1 in E2. inversion E2. reflexivity.
    + apply Z.eqb_neq in Hst. rewrite Hst.
      destruct (ready_own (route c) (env c) fs) as [E|(E1 & E2)].
      * rewrite E. destruct (fs !! store_path USER (route c)) as [[|recs]|];
          [auto|rewrite app_nil_r; reflexivity|auto].
      * rewrite E1. right. exact E2.
  - rewrite bool_decide_eq_false_2 by exact Hk. cbn [andb].
    assert (Hsame : fs' !! store_path USER k = fs !! store_path USER k).
    { rewrite <- (ready_other (route c) k (env c) fs) by congruence.
      destruct Hout as [(_ & data & fr & recs1 & _ & _ & _ & _ & _ & _ & ->)
                       |(_ & ->)]; [|reflexivity].
      apply lookup_insert_ne. intros Heq. apply store_path_inj in Heq.
      contradiction. }
    rewrite Hsame.
    destruct (fs !! store_path USER k) as [[|recs]|];
      [auto|rewrite app_nil_r; reflexivity|auto].
Qed.

Lemma serve_cons c calls fs :
  serve USER (c :: calls) fs =
  (fst (handle USER c fs) :: fst (serve USER calls (snd (handle USER c fs))),
   snd (serve USER calls (snd (handle USER c fs)))).
Proof.
  cbn [serve]. destruct (handle USER c fs) as [r fs1]. cbn [fst snd].
  destruct (serve USER calls fs1) as [rs fs2]. reflexivity.
Qed.

(** A run of the server, seen from the store of [k]. *)
Lemma serve_store k calls : forall fs,
  let rs := fst (serve USER calls fs) in
  let fs' := snd (serve USER calls fs) in
  match fs !! store_path USER k with
  | Some (File recs) =>
      fs' !! store_path USER k
      = Some (File (recs ++ accepted_records k calls rs))
  | Some Dir =>
      fs' !! store_path USER k = Some Dir /\ accepted_records k calls rs = []
  | None =>
      (fs' !! store_path USER k = None /\ accepted_records k calls rs = []) \/
      fs' !! store_path USER k
      = Some (File (map PyStr (store_header k) :: accepted_records k calls rs))
  end.
Proof.
  induction calls as [|c calls IH]; intros fs; cbn zeta.
  - cbn [serve fst snd accepted_records].
    destruct (fs !! store_path USER k) as [[|recs]|];
      [auto|rewrite app_nil_r; reflexivity|auto].
  - rewrite serve_cons. cbn [fst snd accepted_records].
    destruct (handle USER c fs) as [r fs1] eqn:Hh. cbn [fst snd].
    pose proof (handle_store_step k c fs r fs1 Hh) as Hstep.
    specialize (IH fs1). cbn zeta in IH, Hstep.
    set (new := if accepted k c r then [appended_record c] else []) in *.
    set (later := accepted_records k calls (fst (serve USER calls fs1))) in *.
    destruct (fs !! store_path USER k) as [[|recs]|].
    + destruct Hstep as [E ->]. rewrite E in IH. exact IH.
    + rewrite Hstep in IH. rewrite IH, <- app_assoc. reflexivity.
    + destruct Hstep as [[E ->]|E]; rewrite E in IH; [exact IH|].
      right. rewrite IH. reflexivity.
Qed.

Lemma accepted_records_length k calls : forall rs,
  length (accepted_records k calls rs) = accepted_count k calls rs.
Proof.
  induction calls as [|c calls IH]; intros [|r rs]; try reflexivity.
  cbn [accepted_records accepted_count]. rewrite length_app, IH.
  destruct (accepted k c r); reflexivity.
Qed.



Lemma data_rows_ready k k' e fs :
  data_rows USER k' (ready USER k e fs) = data_rows USER k' fs.
Proof.
  unfold data_rows, store_records.
  destruct (decide (k' = k)) as [->|Hne].
  - destruct (ready_own k e fs) as [->|[-> ->]]; reflexivity.
  - rewrite ready_other by exact Hne. reflexivity.
Qed.

Lemma store_records_ready k k' e fs recs :
  store_records USER k' fs = Some recs ->
  store_records USER k' (ready USER k e fs) = Some recs.
Proof.
  unfold store_records. intros H.
  destruct (decide (k' = k)) as [->|Hne].
  - destruct (ready_own k e fs) as [->|[E _]]; [exact H|].
    rewrite E in H. discriminate.
  - rewrite ready_other by exact Hne. exact H.
Qed.

(** The record of a payload the row builder accepts. *)
Lemma row_builder_record k e d final_row :
  row_builder k e (PyDict d) = Ok final_row ->
  exists rec,
    dict_to_list (store_header k) final_row = Ok rec /\
    match k with
    | SaveData =>
        exists res, dict_get d (py "results") (PyDict []) = PyDict res /\
                    rec = eval_record e d res
    | SaveSuggestion =>
        ~ missing d (py "medicationName") /\ ~ missing d (py "details") /\
        rec = suggestion_record e d
    end.
Proof.
  destruct k; cbn [row_builder store_header].
  - rewrite eval_final_row_dict.
    destruct (dict_get d (py "results") (PyDict [])) as [| | | | |res];
      try discriminate.
    intros Heq. exists (eval_record e d res).
    split; [|exists res; split; reflexivity].
    apply (f_equal (fun x => match x with Ok a => a | Raise _ => [] end)) in Heq.
    rewrite <- Heq. exact (dict_to_list_eval_row (eval_record e d res) eq_refl).
  - rewrite suggestion_final_row_dict. unfold missing.
    destruct (truthy (dict_get d (py "medicationName") PyNone));
      [|discriminate].
    destruct (truthy (dict_get d (py "details") PyNone)); [|discriminate].
    cbn [andb]. intros Heq. exists (suggestion_record e d).
    split; [|split; [discriminate|split; [discriminate|reflexivity]]].
    apply (f_equal (fun x => match x with Ok a => a | Raise _ => [] end)) in Heq.
    rewrite <- Heq.
    exact (dict_to_list_suggestion_row (suggestion_record e d) eq_refl).
Qed.

(** An accepted call with an object payload appended the record of that
    payload to its store. *)
Lemma accepted_call c d fs r fs' :
  get_json (sent c) = Some (PyDict d) ->
  handle USER c fs = (r, fs') ->
  status_code r = 200%Z ->
  exists recs,
    store_records USER (route c) (ready USER (route c) (env c) fs) = Some recs /\
    store_records USER (route c) fs' = Some (recs ++ [appended_record c]) /\
    match route c with
    | SaveData =>
        exists res, dict_get d (py "results") (PyDict []) = PyDict res /\
                    appended_record c = eval_record (env c) d res
    | SaveSuggestion =>
        ~ missing d (py "medicationName") /\ ~ missing d (py "details") /\
        appended_record c = suggestion_record (env c) d
    end.
Proof.
  intros Hdata Hh Hst.
  destruct (handle_outcome c fs r fs' Hh)
    as [(_ & data & fr & recs & _ & Hdata' & Hrow & Hrec & _ & Hfs1 & ->)
       |(Hne & _)]; [|contradiction].
  rewrite Hdata in Hdata'. injection Hdata' as <-.
  exists recs. unfold store_records. rewrite Hfs1, lookup_insert_eq.
  split; [reflexivity|]. split; [reflexivity|].
  destruct (row_builder_record (route c) (env c) d fr Hrow) as (rec & Hrec' & H).
  rewrite Hrec in Hrec'. injection Hrec' as <-. exact H.
Qed.

End Handlers.

(** * The claims *)

(** ** C1: header invariant *)



(** ** C2: a suggestion without its required fields *)

(** C2, as stated, fails on a fresh file system: a suggestion without
    [details] is answered 400, yet the state is not as before, because the
    handler has already created the store with its header row. *)
Lemma C2_state_changes_on_rejection :
  let req := json_request (PyDict [(py "medicationName", PyStr (py "Aspirin"))]) in
  let out := save_suggestion sample_user calm req ∅ in
  status_code (fst out) = 400%Z /\
  snd out <> ∅ /\
  snd out !! SUGGESTIONS_FILE sample_user
  = Some (File [map PyStr SUGGESTIONS_HEADER]).
Proof.
  intros req out.
  assert (Hfile : snd out !! SUGGESTIONS_FILE sample_user
                  = Some (File [map PyStr SUGGESTIONS_HEADER]))
    by (vm_compute; reflexivity).
  split; [vm_compute; reflexivity|]. split; [|exact Hfile].
  intros Hsame. rewrite Hsame, lookup_empty in Hfile. discriminate Hfile.
Qed.

(** C2, amended. A suggestion payload in which [medicationName] or
    [details] is absent or empty is answered 400 with the reason "Missing
    required suggestion fields (medicationName or details)". No data row is
    appended: the handler leaves the file system as its call of the store
    initialiser left it, which keeps everything that existed, leaves the
    data rows of both stores as they were, and at most created the
    suggestion store with its header row. *)
Theorem C2_missing_field_rejected (USER : option pystr) (e : io_env)
    (req : request) (d : pydict) (fs : filesystem) :
  is_json req = true ->
  get_json req = Some (PyDict d) ->
  missing d (py "medicationName") \/ missing d (py "details") ->
  let fs1 := ready USER SaveSuggestion e fs in
  save_suggestion USER e req fs
  = (error_response 400
       (py "Missing required suggestion fields (medicationName or details)"),
     fs1) /\
  fs ⊆ fs1 /\
  (forall k, data_rows USER k fs1 = data_rows USER k fs) /\
  (forall recs, store_records USER SaveSuggestion fs = Some recs ->
                store_records USER SaveSuggestion fs1 = Some recs) /\
  (store_records USER SaveSuggestion fs = None ->
   store_records USER SaveSuggestion fs1 = None \/
   store_records USER SaveSuggestion fs1
   = Some [map PyStr SUGGESTIONS_HEADER]).
Proof.
  intros Hjson Hdata Hmissing fs1. split; [|split; [|split; [|split]]].
  - unfold save_suggestion.
    rewrite (initialize_csv_ready USER SaveSuggestion). fold fs1.
    rewrite Hjson, Hdata. cbn [negb]. rewrite suggestion_final_row_dict.
    unfold missing in Hmissing.
    destruct Hmissing as [-> | ->]; [reflexivity|].
    rewrite andb_false_r. reflexivity.
  - apply initialize_csv_subseteq.
  - intros k. apply data_rows_ready.
  - intros recs. apply store_records_ready.
  - unfold store_records, fs1. intros Hnone.
    destruct (ready_own USER SaveSuggestion e fs) as [->|[_ ->]];
      [left; exact Hnone|right; reflexivity].
Qed.

Lemma C2_missing_field_rejected_witness :
  let req := json_request (PyDict [(py "medicationName", PyStr (py "Aspirin"));
                                   (py "details", PyStr [])]) in
  is_json req = true /\
  missing [(py "medicationName", PyStr (py "Aspirin")); (py "details", PyStr [])]
    (py "details") /\
  status_code (fst (save_suggestion sample_user calm req ∅)) = 400%Z.
Proof.
  intros req. split; [reflexivity|]. split; [reflexivity|].
  destruct (C2_missing_field_rejected sample_user calm req _ ∅
              eq_refl eq_refl (or_intror eq_refl)) as [-> _].
  reflexivity.
Defined.

(** ** C3: the medication lists survive serialisation *)



(** The text [json.dumps] writes does not tell a lone high surrogate
    followed by a lone low surrogate from the code point they encode as a
    pair: [py_wf] rules the former out. *)
Example json_dumps_surrogates :
  json_dumps (PyStr [55357; 56832]) = json_dumps (PyStr [128512]) /\
  py_wf (PyStr [55357; 56832]) = false /\
  py_wf (PyStr [128512]) = true.
Proof. repeat split. Qed.

(** ** C4: the defaults of [researchId] and [timestamp] *)



(** ** C5: the store initialiser is idempotent *)



(** ** C6: the store is made ready before the body is looked at *)




(** ** C7: a body that is not an object *)



(** ** C8: every record has every column *)

(** C8. An accepted call of either kind appends one record with exactly
    one value per column of its header, in the header's order: the record of
    an evaluation is [eval_record], the record of a suggestion is
    [suggestion_record]. A payload without [age] (evaluation) or without
    [email] (suggestion) gets [None] in that column, and the other columns
    keep their places. *)
Theorem C8_column_completeness (USER : option pystr) (c : call) (d : pydict)
    (fs : filesystem) :
  get_json (sent c) = Some (PyDict d) ->
  status_code (fst (handle USER c fs)) = 200%Z ->
  exists recs rec,
    store_records USER (route c) (snd (handle USER c fs))
    = Some (recs ++ [rec]) /\
    length rec = length (store_header (route c)) /\
    match route c with
    | SaveData =>
        (exists res, dict_get d (py "results") (PyDict []) = PyDict res /\
                     rec = eval_record (env c) d res) /\
        (dict_lookup d (py "age") = None ->
         column EVAL_CSV_HEADER (py "age") rec = Some PyNone)
    | SaveSuggestion =>
        rec = suggestion_record (env c) d /\
        (dict_lookup d (py "email") = None ->
         column SUGGESTIONS_HEADER (py "email") rec = Some PyNone)
    end.
Proof.
  intros Hdata Hst.
  destruct (handle USER c fs) as [r fs'] eqn:Hh. cbn [fst snd] in *.
  destruct (accepted_call USER c d fs r fs' Hdata Hh Hst)
    as (recs & _ & Hrecs & Hrec).
  exists recs, (appended_record c). split; [exact Hrecs|].
  destruct (route c).
  - destruct Hrec as (res & Hres & ->). split; [reflexivity|].
    split; [eauto|]. intros Hage. unfold eval_record, dict_get.
    rewrite Hage. reflexivity.
  - destruct Hrec as (_ & _ & ->). split; [reflexivity|].
    split; [reflexivity|]. intros Hmail.
    unfold suggestion_record, dict_get. rewrite Hmail. reflexivity.
Qed.

Lemma C8_column_completeness_witness :
  let c := post SaveSuggestion calm (json_request (PyDict suggestion_payload)) in
  status_code (fst (handle sample_user c ∅)) = 200%Z /\
  exists recs,
    store_records sample_user SaveSuggestion (snd (handle sample_user c ∅))
    = Some (recs ++ [[PyStr (py "2024-02-29T12:30:05.000250");
                      PyStr (py "Aspirin");
                      PyStr (py "interacts with warfarin");
                      PyNone]]).
Proof.
  intros c.
  assert (Hst : status_code (fst (handle sample_user c ∅)) = 200%Z)
    by (vm_compute; reflexivity).
  split; [exact Hst|].
  destruct (C8_column_completeness sample_user c suggestion_payload ∅
              eq_refl Hst) as (recs & rec & Hrecs & _ & -> & _).
  exists recs. exact Hrecs.
Defined.

(** ** C9: storage is checked when the row is appended *)



(** ** C10: what the evaluation endpoint requires *)




(** * Further properties of the backend *)

(** ** Dicts and the row handed to the writer *)

Section Rows.

Lemma dict_lookup_set (d : pydict) k v k' :
  dict_lookup (dict_set d k v) k' =
  if decide (k = k') then Some v else dict_lookup d k'.
Proof.
  induction d as [|[k0 v0] d IH]; cbn [dict_set dict_lookup].
  - reflexivity.
  - destruct (decide (k0 = k)) as [->|Hne]; cbn [dict_lookup].
    + destruct (decide (k = k')); reflexivity.
    + rewrite IH. destruct (decide (k0 = k')) as [->|?]; [|reflexivity].
      destruct (decide (k = k')); [congruence|reflexivity].
Qed.

Lemma dict_keys_set (d : pydict) k v k' :
  k' ∈ dict_keys (dict_set d k v) -> k' = k \/ k' ∈ dict_keys d.
Proof.
  unfold dict_keys.
  induction d as [|[k0 v0] d IH]; cbn [dict_set map fst]; intros Hin.
  - apply list_elem_of_singleton in Hin. auto.
  - destruct (decide (k0 = k)) as [->|Hne]; cbn [map fst] in Hin;
      apply elem_of_cons in Hin as [->|Hin]; auto.
    + right. apply list_elem_of_further. exact Hin.
    + right. apply list_elem_of_here.
    + destruct (IH Hin); auto. right. apply list_elem_of_further. assumption.
Qed.

(** The dict a comprehension [{key: f(key) for key in header}] builds on
    top of [acc]. *)
Lemma comprehension_lookup (f : pystr -> pyval) header : forall acc k,
  dict_lookup
    (fold_left (fun d kv => dict_set d (fst kv) (snd kv))
       (map (fun key => (key, f key)) header) acc) k
  = if bool_decide (k ∈ header) then Some (f k) else dict_lookup acc k.
Proof.
  induction header as [|h header IH]; intros acc k; cbn [map fold_left].
  - reflexivity.
  - rewrite IH. cbn [fst snd]. rewrite dict_lookup_set.
    destruct (bool_decide (k ∈ header)) eqn:Hin.
    + apply bool_decide_eq_true in Hin.
      rewrite bool_decide_eq_true_2 by (apply list_elem_of_further; exact Hin).
      reflexivity.
    + apply bool_decide_eq_false in Hin.
      destruct (decide (h = k)) as [->|Hne].
      * rewrite bool_decide_eq_true_2 by apply list_elem_of_here. reflexivity.
      * rewrite bool_decide_eq_false_2; [reflexivity|].
        intros Hk. apply elem_of_cons in Hk as [->|Hk]; contradiction.
Qed.

Lemma comprehension_keys (f : pystr -> pyval) header : forall acc k,
  k ∈ dict_keys
        (fold_left (fun d kv => dict_set d (fst kv) (snd kv))
           (map (fun key => (key, f key)) header) acc) ->
  k ∈ header \/ k ∈ dict_keys acc.
Proof.
  induction header as [|h header IH]; intros acc k; cbn [map fold_left];
    [auto|].
  intros Hin. apply IH in Hin as [Hin|Hin].
  - left. apply list_elem_of_further. exact Hin.
  - cbn [fst snd] in Hin. apply dict_keys_set in Hin as [->|Hin]; [|auto].
    left. apply list_elem_of_here.
Qed.

(** [DictWriter] takes the row of a comprehension over its own
    [fieldnames]. *)
Lemma dict_to_list_comprehension (f : pystr -> pyval) header :
  dict_to_list header (dict_of_items (map (fun key => (key, f key)) header))
  = Ok (map f header).
Proof.
  unfold dict_to_list, dict_of_items.
  assert (Hkeys : forallb (fun k => bool_decide (k ∈ header))
            (dict_keys
               (fold_left (fun d kv => dict_set d (fst kv) (snd kv))
                  (map (fun key => (key, f key)) header) [])) = true).
  { apply forallb_forall. intros k Hk. apply bool_decide_eq_true.
    apply list_elem_of_In in Hk.
    apply comprehension_keys in Hk as [Hk|Hk]; [exact Hk|inversion Hk]. }
  rewrite Hkeys. f_equal. apply map_ext_in. intros key Hkey.
  unfold dict_get. rewrite comprehension_lookup.
  rewrite bool_decide_eq_true_2 by (apply list_elem_of_In; exact Hkey).
  reflexivity.
Qed.

End Rows.

(** X1. For every header and every [row_data], the row the dict
    comprehension builds is one [csv.DictWriter] accepts: [writerow] does
    not raise for a field outside [fieldnames], and the record it writes
    holds, column by column, [row_data.get(key)]: keys of [row_data] the
    header does not name are dropped, keys it lacks become [None]. *)
Theorem X1_writer_accepts_final_row (header : list pystr)
    (row_data : pydict) :
  dict_to_list header (final_row_of header row_data)
  = Ok (map (fun key => dict_get row_data key PyNone) header) /\
  length (map (fun key => dict_get row_data key PyNone) header)
  = length header.
Proof.
  split; [|apply length_map].
  exact (dict_to_list_comprehension
           (fun key => dict_get row_data key PyNone) header).
Qed.

(** ** The text of the JSON columns *)

Section Printable.

Lemma hex_digit_printable d :
  d < 16 -> is_printable_ascii (hex_digit d) = true.
Proof.
  intros Hd. unfold is_printable_ascii, hex_digit.
  destruct (N.ltb_spec d 10); apply andb_true_iff; split; apply N.leb_le; lia.
Qed.

Lemma hex4_printable n : forallb is_printable_ascii (hex4 n) = true.
Proof.
  unfold hex4. cbn [forallb].
  rewrite !hex_digit_printable by (apply N.mod_lt; lia). reflexivity.
Qed.

Lemma escape_char_printable c :
  forallb is_printable_ascii (escape_char c) = true.
Proof.
  unfold escape_char.
  repeat match goal with
         | |- context [if ?x =? ?y then _ else _] =>
             destruct (x =? y); [reflexivity|]
         end.
  destruct ((32 <=? c) && (c <=? 126)) eqn:Hc.
  - cbn [forallb]. unfold is_printable_ascii. rewrite Hc. reflexivity.
  - destruct (c <? 65536).
    + cbn [app forallb]. rewrite hex4_printable. reflexivity.
    + cbn zeta. rewrite !forallb_app, !hex4_printable. reflexivity.
Qed.

Lemma encode_basestring_ascii_printable s :
  forallb is_printable_ascii (encode_basestring_ascii s) = true.
Proof.
  unfold encode_basestring_ascii. rewrite !forallb_app.
  assert (H : forallb is_printable_ascii (flat_map escape_char s) = true).
  { induction s as [|c s IH]; [reflexivity|].
    cbn [flat_map]. rewrite forallb_app, escape_char_printable, IH.
    reflexivity. }
  rewrite H. reflexivity.
Qed.

Lemma int_repr_printable z : forallb is_printable_ascii (int_repr z) = true.
Proof.
  assert (H : forall u, forallb is_printable_ascii (uint_digits u) = true)
    by (induction u; cbn [uint_digits forallb]; try rewrite IHu; reflexivity).
  unfold int_repr. destruct (Z.to_int z); cbn [forallb]; rewrite H; reflexivity.
Qed.

Lemma join_with_printable sp parts :
  forallb is_printable_ascii sp = true ->
  Forall (fun p => forallb is_printable_ascii p = true) parts ->
  forallb is_printable_ascii (join_with sp parts) = true.
Proof.
  intros Hsp Hparts. induction Hparts as [|p parts Hp _ IH]; [reflexivity|].
  cbn [join_with]. destruct parts as [|q parts]; [exact Hp|].
  rewrite !forallb_app, Hp, Hsp, IH. reflexivity.
Qed.

(** [json.dumps] writes printable ASCII only, whatever the strings of the
    value hold. *)
Lemma json_dumps_printable v :
  forallb is_printable_ascii (json_dumps v) = true.
Proof.
  induction v as [| b | z | s | l IH | d IH] using pyval_ind.
  - reflexivity.
  - destruct b; reflexivity.
  - apply int_repr_printable.
  - apply encode_basestring_ascii_printable.
  - cbn [json_dumps]. rewrite !forallb_app.
    rewrite join_with_printable; [reflexivity|reflexivity|].
    apply Forall_map. exact IH.
  - rewrite json_dumps_dict. rewrite !forallb_app.
    rewrite join_with_printable; [reflexivity|reflexivity|].
    apply Forall_map. eapply Forall_impl; [exact IH|].
    intros kv Hkv. cbn beta in Hkv. unfold dumps_member.
    rewrite !forallb_app, encode_basestring_ascii_printable, Hkv.
    reflexivity.
Qed.

End Printable.

(** X2. In the record of an accepted evaluation the two JSON columns are
    printable ASCII, whatever the medication lists of the payload hold:
    control characters, quotes and code points outside ASCII are written as
    escapes, so these columns never carry a line break and never fail to
    encode. *)
Theorem X2_json_columns_printable (USER : option pystr) (e : io_env)
    (req : request) (d : pydict) (fs : filesystem) :
  get_json req = Some (PyDict d) ->
  status_code (fst (save_data USER e req fs)) = 200%Z ->
  exists recs rec known other,
    store_records USER SaveData (snd (save_data USER e req fs))
    = Some (recs ++ [rec]) /\
    column EVAL_CSV_HEADER (py "knownMedicationsJson") rec
    = Some (PyStr known) /\
    column EVAL_CSV_HEADER (py "otherMedicationsJson") rec
    = Some (PyStr other) /\
    forallb is_printable_ascii known = true /\
    forallb is_printable_ascii other = true.
Proof.
  intros Hdata Hst.
  destruct (save_data USER e req fs) as [r fs'] eqn:Hh. cbn [fst snd] in *.
  destruct (accepted_call USER (post SaveData e req) d fs r fs' Hdata Hh Hst)
    as (recs & _ & Hrecs & res & _ & Hrec).
  cbn [route env post] in *. rewrite Hrec in Hrecs.
  exists recs, (eval_record e d res),
    (json_dumps (dict_get d (py "knownMedications") (PyList []))),
    (json_dumps (dict_get d (py "otherMedications") (PyList []))).
  split; [exact Hrecs|]. split; [reflexivity|]. split; [reflexivity|].
  split; apply json_dumps_printable.
Qed.

(** A medication name with a line break, a quote and an accented letter. *)
Lemma X2_json_columns_printable_witness :
  let d := [(py "knownMedications", PyList [PyStr [65; 10; 34; 233]])] in
  let out := save_data sample_user calm (json_request (PyDict d)) ∅ in
  status_code (fst out) = 200%Z /\
  exists recs rec known,
    store_records sample_user SaveData (snd out) = Some (recs ++ [rec]) /\
    column EVAL_CSV_HEADER (py "knownMedicationsJson") rec
    = Some (PyStr known) /\
    forallb is_printable_ascii known = true.
Proof.
  intros d out.
  assert (Hst : status_code (fst out) = 200%Z) by (vm_compute; reflexivity).
  split; [exact Hst|].
  destruct (X2_json_columns_printable sample_user calm
              (json_request (PyDict d)) d ∅ eq_refl Hst)
    as (recs & rec & known & other & H1 & H2 & _ & H3 & _).
  exists recs, rec, known. auto.
Defined.

(** ** What a handler reads from its payload *)

Section PayloadFields.

Lemma dict_get_set_ne (d : pydict) k v k' default :
  k' <> k -> dict_get (dict_set d k v) k' default = dict_get d k' default.
Proof.
  intros Hne. unfold dict_get. rewrite dict_lookup_set.
  destruct (decide (k = k')); [congruence|reflexivity].
Qed.

Local Ltac field_differs Hk :=
  let E := fresh in
  intros E; apply Hk; rewrite <- E;
  apply (proj1 (bool_decide_eq_true _)); vm_compute; reflexivity.

(** A key the handler does not read has no part in the row. *)
Lemma row_builder_ignores k e (d : pydict) key v :
  key ∉ payload_fields k ->
  row_builder k e (PyDict (dict_set d key v)) = row_builder k e (PyDict d).
Proof.
  intros Hk. destruct k; cbn [row_builder payload_fields] in *.
  - unfold eval_final_row. cbn [py_get mbind result_bind].
    rewrite !(dict_get_set_ne d key v) by field_differs Hk. reflexivity.
  - unfold suggestion_final_row. cbn [py_get mbind result_bind].
    rewrite !(dict_get_set_ne d key v) by field_differs Hk. reflexivity.
Qed.

End PayloadFields.

(** X3. A payload field the handler does not read is dropped silently:
    adding or changing such a field changes neither the answer nor what is
    written. *)
Theorem X3_unread_fields_ignored (USER : option pystr) (k : endpoint)
    (e : io_env) (json : bool) (d : pydict) (key : pystr) (v : pyval)
    (fs : filesystem) :
  key ∉ payload_fields k ->
  handle USER
    (post k e {| is_json := json; get_json := Some (PyDict (dict_set d key v)) |})
    fs
  = handle USER
      (post k e {| is_json := json; get_json := Some (PyDict d) |}) fs.
Proof.
  intros Hk. pose proof (row_builder_ignores k e d key v Hk) as Hrow.
  unfold handle, post. cbn [route env sent].
  destruct k; cbn [row_builder] in Hrow;
    [unfold save_data|unfold save_suggestion];
    cbn [is_json get_json]; rewrite Hrow; reflexivity.
Qed.

Lemma X3_unread_fields_ignored_witness :
  (py "weight" ∉ payload_fields SaveData) /\
  fst (handle sample_user
         (post SaveData calm
            (json_request
               (PyDict (dict_set evaluation_payload (py "weight") (PyInt 70)))))
         ∅)
  = message_response 200 (py "Evaluation data saved successfully").
Proof.
  assert (Hk : py "weight" ∉ payload_fields SaveData).
  { intros Hin. apply (proj2 (bool_decide_eq_true _)) in Hin.
    vm_compute in Hin. discriminate Hin. }
  split; [exact Hk|].
  unfold json_request.
  rewrite (X3_unread_fields_ignored sample_user SaveData calm true
             evaluation_payload (py "weight") (PyInt 70) ∅ Hk).
  vm_compute. reflexivity.
Defined.

(** X4. A value the caller supplies for [researchId], [timestamp] or one
    of the seven fields copied from the payload is written as it is,
    whatever it is: the defaults stand in for an absent key only, so an
    explicit [null] reaches the record as [None] and leaves the column
    empty. *)
Theorem X4_supplied_values_verbatim (USER : option pystr) (e : io_env)
    (req : request) (d : pydict) (key : pystr) (v : pyval)
    (fs : filesystem) :
  get_json req = Some (PyDict d) ->
  key ∈ take 9 EVAL_CSV_HEADER ->
  dict_lookup d key = Some v ->
  status_code (fst (save_data USER e req fs)) = 200%Z ->
  exists recs rec,
    store_records USER SaveData (snd (save_data USER e req fs))
    = Some (recs ++ [rec]) /\
    column EVAL_CSV_HEADER key rec = Some v.
Proof.
  intros Hdata Hkey Hv Hst.
  destruct (save_data USER e req fs) as [r fs'] eqn:Hh. cbn [fst snd] in *.
  destruct (accepted_call USER (post SaveData e req) d fs r fs' Hdata Hh Hst)
    as (recs & _ & Hrecs & res & _ & Hrec).
  cbn [route env post] in *. rewrite Hrec in Hrecs.
  exists recs, (eval_record e d res). split; [exact Hrecs|].
  cbn [take EVAL_CSV_HEADER map] in Hkey.
  repeat (apply elem_of_cons in Hkey as [->|Hkey];
          [unfold eval_record, dict_get; rewrite Hv; reflexivity|]).
  inversion Hkey.
Qed.

(** An evaluation with [researchId: null]. *)
Lemma X4_supplied_values_verbatim_witness :
  let d := [(py "researchId", PyNone)] in
  let out := save_data sample_user calm (json_request (PyDict d)) ∅ in
  (py "researchId" ∈ take 9 EVAL_CSV_HEADER) /\
  status_code (fst out) = 200%Z /\
  exists recs rec,
    store_records sample_user SaveData (snd out) = Some (recs ++ [rec]) /\
    column EVAL_CSV_HEADER (py "researchId") rec = Some PyNone.
Proof.
  intros d out.
  assert (Hkey : py "researchId" ∈ take 9 EVAL_CSV_HEADER)
    by apply list_elem_of_here.
  assert (Hst : status_code (fst out) = 200%Z) by (vm_compute; reflexivity).
  split; [exact Hkey|]. split; [exact Hst|].
  exact (X4_supplied_values_verbatim sample_user calm
           (json_request (PyDict d)) d (py "researchId") PyNone ∅
           eq_refl Hkey eq_refl Hst).
Defined.

(** ** The answers of a handler and what they say about the state *)

Section Outcomes.

Variable USER : option pystr.

Implicit Types (fs : gmap pystr node) (k : endpoint) (c : call).





End Outcomes.










(** ** More on the store initialiser *)

Section InitialiserMore.

Implicit Types (fs : gmap pystr node) (p : pystr).






End InitialiserMore.

Section StoresMore.

Variable USER : option pystr.

Implicit Types (fs : gmap pystr node) (k : endpoint).




End StoresMore.









(** X14. When a directory sits at the path of a store, no call to that
    endpoint is ever accepted, and the handlers never remove or replace the
    directory. *)
Theorem X14_directory_at_store_path (USER : option pystr) (k : endpoint)
    (calls : list call) (fs : filesystem) :
  fs !! store_path USER k = Some Dir ->
  let rs := fst (serve USER calls fs) in
  snd (serve USER calls fs) !! store_path USER k = Some Dir /\
  accepted_count k calls rs = 0%nat.
Proof.
  intros Hdir rs. pose proof (serve_store USER k calls fs) as H.
  cbn zeta in H. rewrite Hdir in H. destruct H as [H1 H2].
  split; [exact H1|]. unfold rs.
  rewrite <- accepted_records_length, H2. reflexivity.
Qed.

Lemma X14_directory_at_store_path_witness :
  let fs : filesystem := {[ EVAL_DATA_FILE sample_user := Dir ]} in
  let c := post SaveData calm (json_request (PyDict evaluation_payload)) in
  fs !! store_path sample_user SaveData = Some Dir /\
  accepted_count SaveData [c] (fst (serve sample_user [c] fs)) = 0%nat /\
  status_code (fst (handle sample_user c fs)) = 500%Z.
Proof.
  intros fs c.
  assert (Hfs : fs !! store_path sample_user SaveData = Some Dir)
    by apply lookup_singleton_eq.
  split; [exact Hfs|]. split; [|vm_compute; reflexivity].
  apply (X14_directory_at_store_path sample_user SaveData [c] fs Hfs).
Defined.



(** ** The two kinds are independent *)

Section Independence.

Variable USER : option pystr.

Implicit Types (fs : gmap pystr node) (k : endpoint) (c : call).








End Independence.


(** ** The shape of the stores *)

Section Shape.

Variable USER : option pystr.

Implicit Types (fs : gmap pystr node) (k : endpoint) (c : call).




End Shape.



(** X19. An accepted suggestion that carries no [timestamp] gets the ISO
    text of the clock reading in its first column, and that text parses
    back to the reading; a [timestamp] the caller sends is written as it
    is, unchecked. *)
Theorem X19_suggestion_timestamp (USER : option pystr) (e : io_env)
    (req : request) (d : pydict) (fs : filesystem) :
  get_json req = Some (PyDict d) ->
  datetime_valid (now_first e) = true ->
  status_code (fst (save_suggestion USER e req fs)) = 200%Z ->
  exists recs rec,
    store_records USER SaveSuggestion (snd (save_suggestion USER e req fs))
    = Some (recs ++ [rec]) /\
    match dict_lookup d (py "timestamp") with
    | Some v => column SUGGESTIONS_HEADER (py "timestamp") rec = Some v
    | None =>
        column SUGGESTIONS_HEADER (py "timestamp") rec
        = Some (PyStr (isoformat (now_first e))) /\
        fromisoformat (isoformat (now_first e)) = Some (now_first e)
    end.
Proof.
  intros Hdata Hvalid Hst.
  destruct (save_suggestion USER e req fs) as [r fs'] eqn:Hh.
  cbn [fst snd] in *.
  destruct (accepted_call USER (post SaveSuggestion e req) d fs r fs'
              Hdata Hh Hst) as (recs & _ & Hrecs & _ & _ & Hrec).
  cbn [route env post] in *. rewrite Hrec in Hrecs.
  exists recs, (suggestion_record e d). split; [exact Hrecs|].
  unfold suggestion_record, dict_get.
  destruct (dict_lookup d (py "timestamp")); [reflexivity|].
  split; [reflexivity|apply fromisoformat_isoformat; exact Hvalid].
Qed.

Lemma X19_suggestion_timestamp_witness :
  let req := json_request (PyDict suggestion_payload) in
  let out := save_suggestion sample_user calm req ∅ in
  datetime_valid (now_first calm) = true /\
  status_code (fst out) = 200%Z /\
  exists recs rec,
    store_records sample_user SaveSuggestion (snd out) = Some (recs ++ [rec]) /\
    column SUGGESTIONS_HEADER (py "timestamp") rec
    = Some (PyStr (py "2024-02-29T12:30:05.000250")).
Proof.
  intros req out.
  assert (Hst : status_code (fst out) = 200%Z) by (vm_compute; reflexivity).
  split; [reflexivity|]. split; [exact Hst|].
  destruct (X19_suggestion_timestamp sample_user calm req suggestion_payload ∅
              eq_refl eq_refl Hst) as (recs & rec & H1 & H2).
  exists recs, rec. split; [exact H1|].
  cbn [dict_lookup suggestion_payload] in H2.
  change (dict_lookup suggestion_payload (py "timestamp")) with (@None pyval)
    in H2.
  destruct H2 as [H2 _]. exact H2.
Defined.
